(** * sentence_transformers.models.CamemBERT

    A shallow embedding of the [CamemBERT] adapter class
    (sentence_transformers/models/CamemBERT.py) and the properties its
    specification states about it.

    The adapter wraps a pretrained encoder and its tokenizer.  Both come
    from the [transformers] package; here they are objects with the
    methods the adapter calls ([CamembertModel.t], [CamembertTokenizer.t])
    and two loaders gathered in the class [Transformers].

    Python state is explicit: dictionaries live in a heap and are passed by
    location, so that a default argument shared between calls and a
    feature dictionary updated in place are the same object before and
    after; [logging.warning] appends to a log; files are texts by path.
    Exceptions are results, and a raised exception keeps the state reached
    so far. *)

From stdpp Require Import base numbers option list strings gmap fin_maps.
From Stdlib Require Import Ascii DecimalString DecimalZ DecimalPos.

Local Open Scope Z_scope.
Set Warnings "-register-all".

(** ** Python values *)

(** A tensor as the nested sequence of its entries.  The adapter moves
    entries around and never computes with them, so one integer type stands
    for the entries of id, mask and embedding tensors alike. *)
Inductive tensor :=
| Scalar (x : Z)
| Stack (xs : list tensor).

(** The values that travel through keyword bags and feature dictionaries. *)
Inductive pyval :=
| VNone
| VBool (b : bool)
| VInt (z : Z)
| VStr (s : string)
| VTensor (t : tensor)
| VTuple (vs : list pyval)
| VOpaque (repr : string).

Abbreviation pydict := (gmap string pyval).

(** One row of a tensor and a batch holding a single row. *)
Definition row (xs : list Z) : tensor := Stack (Scalar <$> xs).
Definition batch1 (xs : list Z) : tensor := Stack [row xs].

(** ** Exceptions and the state monad *)

Inductive exn :=
| KeyError (key : string)
| IndexError
| TypeError (what : string)
| FileNotFoundError (path : string)
| EnvironmentError (what : string)
| NotModelled (what : string).

Inductive res (A : Type) :=
| Ok (a : A)
| Raise (e : exn).
Arguments Ok {A} a.
Arguments Raise {A} e.

Definition M (S A : Type) : Type := S → res A * S.

Definition ret {S A} (a : A) : M S A := λ s, (Ok a, s).
Definition raise {S A} (e : exn) : M S A := λ s, (Raise e, s).
Definition bind {S A B} (m : M S A) (k : A → M S B) : M S B :=
  λ s, match m s with
       | (Ok a, s') => k a s'
       | (Raise e, s') => (Raise e, s')
       end.
Definition lift_res {S A} (r : res A) : M S A := λ s, (r, s).
Definition gets {S A} (f : S → A) : M S A := λ s, (Ok (f s), s).
Definition modify {S} (f : S → S) : M S unit := λ s, (Ok tt, f s).

Declare Scope py_scope.
Delimit Scope py_scope with py.
Notation "x <- m ;; k" := (bind m (λ x, k))
  (at level 100, m at next level, right associativity) : py_scope.
Notation "m ;;; k" := (bind m (λ _, k))
  (at level 100, right associativity) : py_scope.
Local Open Scope py_scope.

(** ** The world: dictionaries by identity, the log, the files *)

Definition loc := nat.

Record world := World {
  heap : gmap loc pydict;
  log : list string;
  files : gmap string string
}.

(** The dictionary stored at a location. *)
Definition deref (l : loc) (w : world) : pydict := default ∅ (heap w !! l).

Definition set_heap (h : gmap loc pydict) (w : world) : world :=
  World h (log w) (files w).
Definition set_files (f : gmap string string) (w : world) : world :=
  World (heap w) (log w) f.

(** [logging.warning(msg)] *)
Definition logging_warning (msg : string) : M world unit :=
  modify (λ w, World (heap w) (log w ++ [msg]) (files w)).

(** The dictionary at a location replaced by its new contents. *)
Definition store (l : loc) (d : pydict) (w : world) : world :=
  set_heap (<[l := d]> (heap w)) w.

(** [d[key] = v] *)
Definition dict_setitem (l : loc) (key : string) (v : pyval) : M world unit :=
  modify (λ w, store l (<[key := v]> (deref l w)) w).

(** [d[key]] *)
Definition dict_getitem (l : loc) (key : string) : M world pyval :=
  λ w, match deref l w !! key with
       | Some v => (Ok v, w)
       | None => (Raise (KeyError key), w)
       end.

(** [d.update({k1: v1, ...})]: the pairs are written from left to right. *)
Definition dict_update (l : loc) (kvs : list (string * pyval)) : M world unit :=
  modify (λ w, store l (foldl (λ d kv, <[kv.1 := kv.2]> d) (deref l w) kvs) w).

(** [**d]: the entries of a dictionary as a keyword bag of its own. *)
Definition unpack (l : loc) : M world pydict := gets (deref l).

(** [open(path, 'w')] followed by one write, and [open(path)] followed by
    one read of everything.  Opening for writing is taken to succeed: the
    adapter writes into the directory its collaborators have just saved
    to. *)
Definition write_file (path content : string) : M world unit :=
  modify (λ w, set_files (<[path := content]> (files w)) w).
Definition read_file (path : string) : M world string :=
  λ w, match files w !! path with
       | Some s => (Ok s, w)
       | None => (Raise (FileNotFoundError path), w)
       end.

(** [t[i]] on a tuple. *)
Definition tuple_getitem {S A} (t : list A) (i : nat) : M S A :=
  match t !! i with
  | Some x => ret x
  | None => raise IndexError
  end.

(** [os.path.join(a, b)] of [posixpath]. *)
Fixpoint ends_with_sep (a : string) : bool :=
  match a with
  | EmptyString => false
  | String c EmptyString => bool_decide (c = "/"%char)
  | String _ a' => ends_with_sep a'
  end.
Definition starts_with_sep (b : string) : bool :=
  match b with
  | String c _ => bool_decide (c = "/"%char)
  | EmptyString => false
  end.
Definition os_path_join (a b : string) : string :=
  if starts_with_sep b then b
  else if bool_decide (a = "") || ends_with_sep a then a +:+ b
  else a +:+ "/" +:+ b.

(** ** The [json] module, for the documents the adapter stores

    The sidecar file is a flat object whose values are integers, booleans
    and [null].  [json_dumps] is [json.dumps] on such a dictionary and
    [json_loads] is [json.loads] on such a text; a text outside this
    fragment is answered with [NotModelled]. *)

Inductive jscalar :=
| JNull
| JBool (b : bool)
| JInt (z : Z).

Abbreviation jobject := (list (string * jscalar)).

Definition newline : string := String (Ascii.ascii_of_nat 10) EmptyString.
Definition dquote : Ascii.ascii := Ascii.ascii_of_nat 34.
Definition backslash : Ascii.ascii := Ascii.ascii_of_nat 92.
Definition quoted (s : string) : string :=
  String dquote s +:+ String dquote EmptyString.

Fixpoint spaces (n : nat) : string :=
  match n with
  | O => EmptyString
  | S n' => String " "%char (spaces n')
  end.

Definition string_of_Z (z : Z) : string := NilZero.string_of_int (Z.to_int z).

Definition dump_scalar (v : jscalar) : string :=
  match v with
  | JNull => "null"
  | JBool true => "true"
  | JBool false => "false"
  | JInt z => string_of_Z z
  end.

Definition dump_member (indent : nat) (kv : string * jscalar) : string :=
  spaces indent +:+ quoted kv.1 +:+ ": " +:+ dump_scalar kv.2.

Fixpoint dump_members (indent : nat) (kvs : jobject) : string :=
  match kvs with
  | [] => EmptyString
  | [kv] => dump_member indent kv
  | kv :: rest =>
      dump_member indent kv +:+ "," +:+ newline +:+ dump_members indent rest
  end.

(** [json.dumps(obj, indent=indent)] *)
Definition json_dumps (obj : jobject) (indent : nat) : string :=
  match obj with
  | [] => "{}"
  | _ => "{" +:+ newline +:+ dump_members indent obj +:+ newline +:+ "}"
  end.

Inductive token :=
| TLBrace | TRBrace | TColon | TComma
| TString (s : string)
| TAtom (s : string).

Inductive lexmode :=
| Between
| InString (acc : string)
| InAtom (acc : string).

Definition is_space (c : Ascii.ascii) : bool :=
  bool_decide (c = " "%char) || bool_decide (c = Ascii.ascii_of_nat 10)
  || bool_decide (c = Ascii.ascii_of_nat 13) || bool_decide (c = Ascii.ascii_of_nat 9).

Definition punct (c : Ascii.ascii) : option token :=
  if bool_decide (c = "{"%char) then Some TLBrace
  else if bool_decide (c = "}"%char) then Some TRBrace
  else if bool_decide (c = ":"%char) then Some TColon
  else if bool_decide (c = ","%char) then Some TComma
  else None.

Definition snoc (s : string) (c : Ascii.ascii) : string :=
  s +:+ String c EmptyString.

Definition flush (mode : lexmode) : list token :=
  match mode with
  | InAtom a => [TAtom a]
  | _ => []
  end.

Definition pending (mode : lexmode) : string :=
  match mode with
  | InAtom a => a
  | _ => EmptyString
  end.

(** One character read in a mode: the tokens it completes and the mode
    after it.  Escapes inside strings are outside the fragment. *)
Definition lex_step (mode : lexmode) (c : Ascii.ascii)
    : option (list token * lexmode) :=
  match mode with
  | InString acc =>
      if bool_decide (c = dquote) then Some ([TString acc], Between)
      else if bool_decide (c = backslash) then None
      else Some ([], InString (snoc acc c))
  | _ =>
      if is_space c then Some (flush mode, Between)
      else if bool_decide (c = dquote) then Some (flush mode, InString EmptyString)
      else match punct c with
           | Some t => Some (flush mode ++ [t], Between)
           | None => Some ([], InAtom (snoc (pending mode) c))
           end
  end.

Fixpoint scan (mode : lexmode) (s : string) : option (list token * lexmode) :=
  match s with
  | EmptyString => Some ([], mode)
  | String c s' =>
      match lex_step mode c with
      | Some (ts, m) =>
          match scan m s' with
          | Some (ts', m') => Some (ts ++ ts', m')
          | None => None
          end
      | None => None
      end
  end.

Definition lex (s : string) : option (list token) :=
  match scan Between s with
  | Some (ts, InString _) => None
  | Some (ts, m) => Some (ts ++ flush m)
  | None => None
  end.

(** An atom is [null], [true], [false] or an integer in its canonical
    decimal form. *)
Definition parse_atom (a : string) : option jscalar :=
  if bool_decide (a = "null") then Some JNull
  else if bool_decide (a = "true") then Some (JBool true)
  else if bool_decide (a = "false") then Some (JBool false)
  else match NilZero.int_of_string a with
       | Some d =>
           let z := Z.of_int d in
           if bool_decide (string_of_Z z = a) then Some (JInt z) else None
       | None => None
       end.

Fixpoint parse_members (ts : list token) : option jobject :=
  match ts with
  | TString k :: TColon :: TAtom a :: rest =>
      v ← parse_atom a;
      match rest with
      | [TRBrace] => Some [(k, v)]
      | TComma :: rest' => ((k, v) ::.) <$> parse_members rest'
      | _ => None
      end
  | _ => None
  end.

Definition parse_object (ts : list token) : option jobject :=
  match ts with
  | [TLBrace; TRBrace] => Some []
  | TLBrace :: rest => parse_members rest
  | _ => None
  end.

(** [json.loads(text)] *)
Definition json_loads (text : string) : res jobject :=
  match lex text ≫= parse_object with
  | Some obj => Ok obj
  | None => Raise (NotModelled "json.loads outside the flat fragment")
  end.

(** ** The collaborators from [transformers] *)

Module CamembertModel.
Record config_t := Config {
  hidden_size : Z;
  output_hidden_states : bool
}.

(** The encoder object: its configuration, its forward call on a keyword
    bag, which answers with a tuple, and its own persistence. *)
Record t := Make {
  config : config_t;
  call : pydict → res (list pyval);
  save_pretrained : string → gmap string string → res (gmap string string)
}.
End CamembertModel.

Module CamembertTokenizer.
(** The tokenizer object: sub-word splitting, the vocabulary, the special
    tokens, the keyword arguments it was loaded with, its routine that
    makes model inputs of a sequence of ids ([ids], [max_length],
    [pad_to_max_length], [return_tensors]), and its own persistence. *)
Record t := Make {
  tokenize : string → list string;
  convert_token_to_id : string → Z;
  cls_token : string;
  sep_token : string;
  pad_token : string;
  init_kwargs : pydict;
  prepare_for_model : list Z → Z → bool → string → res pydict;
  save_pretrained : string → gmap string string → res (gmap string string)
}.

Definition convert_tokens_to_ids (tk : t) (tokens : list string) : list Z :=
  convert_token_to_id tk <$> tokens.

(** Modelled from the spec: what [prepare_for_model], which is not part of
    the adapter's source, answers when it is asked to pad to a
    [max_length] with room for the two special tokens and to return
    tensors.  It inserts the classification and separator tokens around the
    content, truncates the content or pads the sequence to [max_length],
    and marks the padding positions with 0 in the attention mask; ids and
    mask are tensors holding a batch of one row, beside any other field the
    tokenizer produces.  Nothing is said of a [max_length] below 2. *)
Definition pads_to_length (tk : t) : Prop :=
  ∀ (ids : list Z) (max_length : Z),
    2 ≤ max_length →
    ∃ d,
      prepare_for_model tk ids max_length true "pt" = Ok d ∧
      let sequence :=
        convert_token_to_id tk (cls_token tk)
        :: take (Z.to_nat (max_length - 2)) ids
        ++ [convert_token_to_id tk (sep_token tk)] in
      let missing := (Z.to_nat max_length - length sequence)%nat in
      d !! "input_ids" =
        Some (VTensor (batch1 (sequence ++ replicate missing
                                 (convert_token_to_id tk (pad_token tk))))) ∧
      d !! "attention_mask" =
        Some (VTensor (batch1 (replicate (length sequence) 1
                               ++ replicate missing 0))).
End CamembertTokenizer.

(** The two [from_pretrained] loaders.  Each resolves a name or a directory
    against the files and takes a keyword bag. *)
Class Transformers := {
  CamembertModel_from_pretrained :
    string → pydict → gmap string string → res CamembertModel.t;
  CamembertTokenizer_from_pretrained :
    string → pydict → gmap string string → res CamembertTokenizer.t
}.

(** A call that reads the files, and a call that rewrites them. *)
Definition reading {A} (f : gmap string string → res A) : M world A :=
  λ w, (f (files w), w).
Definition writing (f : gmap string string → res (gmap string string))
    : M world unit :=
  λ w, match f (files w) with
       | Ok fs => (Ok tt, set_files fs w)
       | Raise e => (Raise e, w)
       end.

(** ** The adapter *)

Record CamemBERT := {
  config_keys : list string;
  do_lower_case : option bool;
  max_seq_length : Z;
  camembert : CamembertModel.t;
  tokenizer : CamembertTokenizer.t;
  cls_token_id : Z;
  sep_token_id : Z
}.

(** The dictionaries created once, when [__init__] is defined, for its
    parameters [model_args: Dict = {}] and [tokenizer_args: Dict = {}]. *)
Definition default_model_args : loc := 0%nat.
Definition default_tokenizer_args : loc := 1%nat.

Definition clamp_warning : string :=
  "CamemBERT only allows a max_seq_length of 511 (514 with special tokens). Value will be set to 511".

(** [CamemBERT(model_name_or_path, max_seq_length, do_lower_case,
    model_args, tokenizer_args)]; [None] is an argument left out. *)
Definition __init__ `{Transformers} (model_name_or_path : string)
    (max_seq_length : option Z) (do_lower_case : option bool)
    (model_args tokenizer_args : option loc) : M world CamemBERT :=
  let max_seq_length := default 128 max_seq_length in
  let model_args := default default_model_args model_args in
  let tokenizer_args := default default_tokenizer_args tokenizer_args in
  let config_keys := ["max_seq_length"; "do_lower_case"] in
  max_seq_length <-
    (if 511 <? max_seq_length
     then logging_warning clamp_warning ;;; ret 511
     else ret max_seq_length) ;;
  match do_lower_case with
  | Some b => dict_setitem tokenizer_args "do_lower_case" (VBool b)
  | None => ret tt
  end ;;;
  kwargs <- unpack model_args ;;
  camembert <-
    reading (CamembertModel_from_pretrained model_name_or_path kwargs) ;;
  kwargs <- unpack tokenizer_args ;;
  tokenizer <-
    reading (CamembertTokenizer_from_pretrained model_name_or_path kwargs) ;;
  cls_token_id <-
    tuple_getitem (CamembertTokenizer.convert_tokens_to_ids tokenizer
                     [CamembertTokenizer.cls_token tokenizer]) 0 ;;
  sep_token_id <-
    tuple_getitem (CamembertTokenizer.convert_tokens_to_ids tokenizer
                     [CamembertTokenizer.sep_token tokenizer]) 0 ;;
  ret {| config_keys := config_keys;
         do_lower_case := do_lower_case;
         max_seq_length := max_seq_length;
         camembert := camembert;
         tokenizer := tokenizer;
         cls_token_id := cls_token_id;
         sep_token_id := sep_token_id |}.

(** A method runs on its receiver and the world. *)
Definition method (A : Type) : Type := M (CamemBERT * world) A.

Definition this : method CamemBERT := gets fst.
Definition in_world {A} (m : M world A) : method A :=
  λ s, let (r, w) := m s.2 in (r, (s.1, w)).

Fixpoint traverse {A B} (f : A → res B) (l : list A) : res (list B) :=
  match l with
  | [] => Ok []
  | x :: l' =>
      match f x with
      | Ok y =>
          match traverse f l' with
          | Ok ys => Ok (y :: ys)
          | Raise e => Raise e
          end
      | Raise e => Raise e
      end
  end.

(** [t[:, 0, :]]: in every element of the batch, the entry at sequence
    position 0. *)
Definition first_position (v : pyval) : res pyval :=
  match v with
  | VTensor (Stack batch) =>
      match traverse (λ sequence,
               match sequence with
               | Stack (Stack e :: _) => Ok (Stack e)
               | _ => Raise IndexError
               end) batch with
      | Ok firsts => Ok (VTensor (Stack firsts))
      | Raise e => Raise e
      end
  | VTensor (Scalar _) => Raise IndexError
  | _ => Raise (TypeError "indices must be integers or slices")
  end.

Definition forward (features : loc) : method loc :=
  self <- this ;;
  kwargs <- in_world (unpack features) ;;
  output_states <- lift_res (CamembertModel.call (camembert self) kwargs) ;;
  output_tokens <- tuple_getitem output_states 0 ;;
  cls_tokens <- lift_res (first_position output_tokens) ;;
  attention_mask <- in_world (dict_getitem features "attention_mask") ;;
  in_world (dict_update features
    [("token_embeddings", output_tokens);
     ("cls_token_embeddings", cls_tokens);
     ("attention_mask", attention_mask)]) ;;;
  (if CamembertModel.output_hidden_states
        (CamembertModel.config (camembert self))
   then hidden_states <- tuple_getitem output_states 2 ;;
        in_world (dict_update features [("all_layer_embeddings", hidden_states)])
   else ret tt) ;;;
  ret features.

Definition get_word_embedding_dimension : method Z :=
  self <- this ;;
  ret (CamembertModel.hidden_size (CamembertModel.config (camembert self))).

Definition tokenize (text : string) : method (list Z) :=
  self <- this ;;
  ret (CamembertTokenizer.convert_tokens_to_ids (tokenizer self)
         (CamembertTokenizer.tokenize (tokenizer self) text)).

Definition get_sentence_features (tokens : list Z) (pad_seq_length : Z)
    : method pydict :=
  self <- this ;;
  let pad_seq_length := Z.min pad_seq_length (max_seq_length self) + 3 in
  lift_res (CamembertTokenizer.prepare_for_model (tokenizer self) tokens
              pad_seq_length true "pt").

(** [self.__dict__[key]], for the attributes this class assigns; the
    encoder, a module, is registered by [nn.Module] outside [__dict__]. *)
Definition __dict__ (self : CamemBERT) (key : string) : res pyval :=
  if bool_decide (key = "config_keys") then Ok (VTuple (VStr <$> config_keys self))
  else if bool_decide (key = "do_lower_case")
       then Ok (match do_lower_case self with
                | Some b => VBool b
                | None => VNone
                end)
  else if bool_decide (key = "max_seq_length") then Ok (VInt (max_seq_length self))
  else if bool_decide (key = "tokenizer") then Ok (VOpaque "CamembertTokenizer")
  else if bool_decide (key = "cls_token_id") then Ok (VInt (cls_token_id self))
  else if bool_decide (key = "sep_token_id") then Ok (VInt (sep_token_id self))
  else Raise (KeyError key).

Definition get_config_dict : method (list (string * pyval)) :=
  self <- this ;;
  lift_res (traverse (λ key,
              match __dict__ self key with
              | Ok v => Ok (key, v)
              | Raise e => Raise e
              end) (config_keys self)).

(** What [json.dump] makes of a dictionary of Python values. *)
Definition to_json (d : list (string * pyval)) : res jobject :=
  traverse (λ kv,
    match kv.2 with
    | VNone => Ok (kv.1, JNull)
    | VBool b => Ok (kv.1, JBool b)
    | VInt z => Ok (kv.1, JInt z)
    | VStr _ | VTuple _ => Raise (NotModelled "json.dump outside the flat fragment")
    | VTensor _ | VOpaque _ => Raise (TypeError "is not JSON serializable")
    end) d.

Definition config_file : string := "sentence_camembert_config.json".

Definition save (output_path : string) : method unit :=
  self <- this ;;
  in_world (writing (CamembertModel.save_pretrained (camembert self) output_path)) ;;;
  in_world (writing (CamembertTokenizer.save_pretrained (tokenizer self) output_path)) ;;;
  let fOut := os_path_join output_path config_file in
  in_world (write_file fOut EmptyString) ;;;
  config <- get_config_dict ;;
  document <- lift_res (to_json config) ;;
  in_world (write_file fOut (json_dumps document 2)).

(** [**config] against the parameters of [__init__]: the values of
    [max_seq_length] and [do_lower_case], where [None] is a key left out. *)
Fixpoint keywords (config : jobject) (acc : option Z * option bool)
    : res (option Z * option bool) :=
  match config with
  | [] => Ok acc
  | (key, v) :: rest =>
      if bool_decide (key = "max_seq_length") then
        match v with
        | JInt z => keywords rest (Some z, acc.2)
        | JNull => Raise (TypeError "'>' not supported between NoneType and int")
        | JBool _ => Raise (NotModelled "a boolean max_seq_length")
        end
      else if bool_decide (key = "do_lower_case") then
        match v with
        | JNull => keywords rest (acc.1, None)
        | JBool b => keywords rest (acc.1, Some b)
        | JInt _ => Raise (NotModelled "an integer do_lower_case")
        end
      else if bool_decide (key = "model_name_or_path") then
        Raise (TypeError "got multiple values for keyword argument")
      else if bool_decide (key = "model_args") || bool_decide (key = "tokenizer_args") then
        Raise (NotModelled "a keyword bag in the sidecar file")
      else Raise (TypeError "got an unexpected keyword argument")
  end.

Definition load `{Transformers} (input_path : string) : M world CamemBERT :=
  text <- read_file (os_path_join input_path config_file) ;;
  config <- lift_res (json_loads text) ;;
  kw <- lift_res (keywords config (None, None)) ;;
  __init__ input_path kw.1 kw.2 None None.

(** ** A small instance of the collaborators

    A tokenizer over single characters that lower-cases when its
    [do_lower_case] option is set, and an encoder that embeds every id in
    two entries.  Both persist their one option in a file of the directory
    they are saved to and are loaded back from it; the name
    ["camembert-base"] resolves without any file. *)

Module Mini.
Definition lower_char (c : ascii) : ascii :=
  let n := nat_of_ascii c in
  if (65 <=? n)%nat && (n <=? 90)%nat then ascii_of_nat (n + 32) else c.

Fixpoint lower (s : string) : string :=
  match s with
  | EmptyString => EmptyString
  | String c s' => String (lower_char c) (lower s')
  end.

Fixpoint chars (s : string) : list string :=
  match s with
  | EmptyString => []
  | String c s' => String c EmptyString :: chars s'
  end.

Definition vocab (token : string) : Z :=
  if bool_decide (token = "<s>") then 5
  else if bool_decide (token = "</s>") then 6
  else if bool_decide (token = "<pad>") then 1
  else match token with
       | String c EmptyString => Z.of_nat (nat_of_ascii c)
       | _ => 3
       end.

Definition flag (b : bool) : string := if b then "on" else "off".

(** The routine of the small tokenizer.  A sequence longer than a
    [max_length] other than 0 loses ids from its end, one for each position
    too many, and there must be that many to lose; the special tokens 5
    and 6 go around what is left; the padding id 1 fills up to
    [max_length] when asked to. *)
Definition prepare (ids : list Z) (max_length : Z) (pad_to_max_length : bool)
    (return_tensors : string) : res pydict :=
  let total := Z.of_nat (length ids) + 2 in
  let bounded := negb (bool_decide (max_length = 0)) in
  let excess :=
    if bounded && (max_length <? total) then total - max_length else 0 in
  if Z.of_nat (length ids) <? excess then Raise IndexError
  else
    let content := take (length ids - Z.to_nat excess) ids in
    let sequence := 5 :: content ++ [6] in
    let missing :=
      if pad_to_max_length && bounded
      then (Z.to_nat max_length - length sequence)%nat else 0%nat in
    let pack xs :=
      if bool_decide (return_tensors = "pt") then VTensor (batch1 xs)
      else VTuple (VInt <$> xs) in
    Ok (<["token_type_ids" := pack (replicate (length sequence + missing) 0)]>
          (<["attention_mask" :=
               pack (replicate (length sequence) 1 ++ replicate missing 0)]>
             (<["input_ids" := pack (sequence ++ replicate missing 1)]> ∅))).

Definition tokenizer (lowering : bool) (kwargs : pydict) : CamembertTokenizer.t :=
  {| CamembertTokenizer.tokenize :=
       λ text, chars (if lowering then lower text else text);
     CamembertTokenizer.convert_token_to_id := vocab;
     CamembertTokenizer.cls_token := "<s>";
     CamembertTokenizer.sep_token := "</s>";
     CamembertTokenizer.pad_token := "<pad>";
     CamembertTokenizer.init_kwargs := kwargs;
     CamembertTokenizer.prepare_for_model := prepare;
     CamembertTokenizer.save_pretrained :=
       λ dir fs, Ok (<[os_path_join dir "tokenizer_config.json" := flag lowering]> fs) |}.

Definition embed (sequence : tensor) : tensor :=
  match sequence with
  | Stack ids =>
      Stack ((λ id, match id with
                    | Scalar z => Stack [Scalar z; Scalar (z + 1)]
                    | t => t
                    end) <$> ids)
  | t => t
  end.

Definition model (hidden : bool) : CamembertModel.t :=
  {| CamembertModel.config := CamembertModel.Config 2 hidden;
     CamembertModel.call :=
       λ kwargs,
         match kwargs !! "input_ids" with
         | Some (VTensor (Stack batch)) =>
             let states := VTensor (Stack (embed <$> batch)) in
             Ok ([states; VTensor (Stack [])]
                 ++ if hidden then [VTuple [states; states]] else [])
         | _ => Raise (TypeError "forward() needs input_ids")
         end;
     CamembertModel.save_pretrained :=
       λ dir fs, Ok (<[os_path_join dir "config.json" := flag hidden]> fs) |}.

(** The option stored under [dir], or the default of the hub name. *)
Definition stored (name file : string) (fs : gmap string string) : res bool :=
  match fs !! os_path_join name file with
  | Some text => Ok (bool_decide (text = "on"))
  | None =>
      if bool_decide (name = "camembert-base") then Ok false
      else Raise (EnvironmentError "cannot resolve the model name")
  end.

Definition override (key : string) (kwargs : pydict) (base : bool) : bool :=
  match kwargs !! key with
  | Some (VBool b) => b
  | _ => base
  end.

Definition model_from_pretrained (name : string) (kwargs : pydict)
    (fs : gmap string string) : res CamembertModel.t :=
  match stored name "config.json" fs with
  | Ok base => Ok (model (override "output_hidden_states" kwargs base))
  | Raise e => Raise e
  end.

Definition tokenizer_from_pretrained (name : string) (kwargs : pydict)
    (fs : gmap string string) : res CamembertTokenizer.t :=
  match stored name "tokenizer_config.json" fs with
  | Ok base => Ok (tokenizer (override "do_lower_case" kwargs base) kwargs)
  | Raise e => Raise e
  end.

Definition library : Transformers :=
  {| CamembertModel_from_pretrained := model_from_pretrained;
     CamembertTokenizer_from_pretrained := tokenizer_from_pretrained |}.

(** The world when the module has just been imported. *)
Definition start : world := World ∅ [] ∅.
End Mini.

(** The world once the constructor's own statements have run: the warning
    of the clamp and the entry written into [tokenizer_args]. *)
Definition after_init (max_seq_length : option Z) (do_lower_case : option bool)
    (tokenizer_args : option loc) (w : world) : world :=
  let w1 :=
    if 511 <? default 128 max_seq_length
    then World (heap w) (log w ++ [clamp_warning]) (files w) else w in
  match do_lower_case with
  | Some b =>
      let l := default default_tokenizer_args tokenizer_args in
      store l (<["do_lower_case" := VBool b]> (deref l w1)) w1
  | None => w1
  end.

(** The adapter the constructor assembles from what the loaders return. *)
Definition assemble (max_seq_length : option Z) (do_lower_case : option bool)
    (enc : CamembertModel.t) (tk : CamembertTokenizer.t) : CamemBERT :=
  {| config_keys := ["max_seq_length"; "do_lower_case"];
     do_lower_case := do_lower_case;
     max_seq_length :=
       if 511 <? default 128 max_seq_length then 511
       else default 128 max_seq_length;
     camembert := enc;
     tokenizer := tk;
     cls_token_id :=
       CamembertTokenizer.convert_token_to_id tk (CamembertTokenizer.cls_token tk);
     sep_token_id :=
       CamembertTokenizer.convert_token_to_id tk (CamembertTokenizer.sep_token tk) |}.

(** The loading part of the constructor on given keyword bags: the encoder,
    then the tokenizer, then the adapter made of the two. *)
Definition pretrained `{Transformers} (model_name_or_path : string)
    (max_seq_length : option Z) (do_lower_case : option bool)
    (model_kwargs tokenizer_kwargs : pydict) (fs : gmap string string)
    : res CamemBERT :=
  match CamembertModel_from_pretrained model_name_or_path model_kwargs fs with
  | Ok enc =>
      match CamembertTokenizer_from_pretrained model_name_or_path
              tokenizer_kwargs fs with
      | Ok tk => Ok (assemble max_seq_length do_lower_case enc tk)
      | Raise e => Raise e
      end
  | Raise e => Raise e
  end.

(** The feature dictionary after the first [update] of [forward]. *)
Definition relabelled (tok cls am : pyval) (d : pydict) : pydict :=
  <["attention_mask" := am]>
    (<["cls_token_embeddings" := cls]> (<["token_embeddings" := tok]> d)).

(** The keys of an adapter that went through the constructor. *)
Definition constructed_keys (a : CamemBERT) : Prop :=
  config_keys a = ["max_seq_length"; "do_lower_case"].

(** The sidecar file of a directory and the document [save] stores in it. *)
Definition config_path (dir : string) : string := os_path_join dir config_file.

Definition config_document (a : CamemBERT) : jobject :=
  [("max_seq_length", JInt (max_seq_length a));
   ("do_lower_case", match do_lower_case a with
                     | Some b => JBool b
                     | None => JNull
                     end)].

(** The text of that document around the digits of [max_seq_length]. *)
Definition text_before_length : string :=
  "{" +:+ newline +:+ spaces 2 +:+ quoted "max_seq_length" +:+ ": ".
Definition text_after_length (v : jscalar) : string :=
  "," +:+ newline +:+ spaces 2 +:+ quoted "do_lower_case" +:+ ": "
  +:+ dump_scalar v +:+ newline +:+ "}".

(** The characters an atom is made of. *)
Definition atom_char (c : ascii) : bool :=
  negb (is_space c) && negb (bool_decide (c = dquote)) && bool_decide (punct c = None).

Fixpoint string_forall (P : ascii → bool) (s : string) : bool :=
  match s with
  | EmptyString => true
  | String c s' => P c && string_forall P s'
  end.

(** ** Runs on the small collaborators *)

(** The adapter built from the defaults. *)
Definition mini_adapter : CamemBERT :=
  assemble None None (Mini.model false) (Mini.tokenizer false ∅).

(** A feature dictionary for one sentence of one token, at location 7, and
    what the small encoder makes of it. *)
Definition mini_features : pydict :=
  <["attention_mask" := VTensor (batch1 [1; 1; 1])]>
    (<["input_ids" := VTensor (batch1 [5; 65; 6])]> ∅).
Definition mini_world : world := store 7%nat mini_features Mini.start.
Definition mini_states : pyval :=
  VTensor (Stack [Stack [Stack [Scalar 5; Scalar 6];
                         Stack [Scalar 65; Scalar 66];
                         Stack [Scalar 6; Scalar 7]]]).
Definition mini_cls : pyval := VTensor (Stack [Stack [Scalar 5; Scalar 6]]).

(** The sidecar file of that adapter. *)
Definition mini_config_text : string :=
  "{" +:+ newline
  +:+ "  " +:+ quoted "max_seq_length" +:+ ": 128," +:+ newline
  +:+ "  " +:+ quoted "do_lower_case" +:+ ": null" +:+ newline
  +:+ "}".

(** ** Further collaborators for runs *)

(** An encoder with named inputs only: like a Python function without
    [**kwargs], it refuses a keyword it does not know. *)
Definition strict_model : CamembertModel.t :=
  {| CamembertModel.config := CamembertModel.Config 2 false;
     CamembertModel.call :=
       λ kwargs,
         match kwargs !! "token_embeddings" with
         | Some _ => Raise (TypeError "forward() got an unexpected keyword argument")
         | None => CamembertModel.call (Mini.model false) kwargs
         end;
     CamembertModel.save_pretrained :=
       CamembertModel.save_pretrained (Mini.model false) |}.

(** An encoder configured to output hidden states whose tuple stops after
    its second element. *)
Definition short_model : CamembertModel.t :=
  {| CamembertModel.config := CamembertModel.Config 2 true;
     CamembertModel.call := λ kwargs, Ok [mini_states; VTensor (Stack [])];
     CamembertModel.save_pretrained :=
       CamembertModel.save_pretrained (Mini.model true) |}.

(** A tokenizer that cannot be saved. *)
Definition unsaved_tokenizer : CamembertTokenizer.t :=
  {| CamembertTokenizer.tokenize :=
       CamembertTokenizer.tokenize (Mini.tokenizer false ∅);
     CamembertTokenizer.convert_token_to_id := Mini.vocab;
     CamembertTokenizer.cls_token := "<s>";
     CamembertTokenizer.sep_token := "</s>";
     CamembertTokenizer.pad_token := "<pad>";
     CamembertTokenizer.init_kwargs := ∅;
     CamembertTokenizer.prepare_for_model := Mini.prepare;
     CamembertTokenizer.save_pretrained :=
       λ dir fs, Raise (EnvironmentError "cannot write the vocabulary") |}.

Definition empty_sentence_world : world :=
  store 7%nat (<["attention_mask" := VTensor (batch1 [])]>
                 (<["input_ids" := VTensor (batch1 [])]> ∅)) Mini.start.

(** The lower-casing keyword bag, and the adapter built with
    [do_lower_case=True]. *)
Definition lowering_kwargs : pydict := {["do_lower_case" := VBool true]}.
Definition lowering_adapter : CamemBERT :=
  assemble None (Some true) (Mini.model false)
    (Mini.tokenizer true lowering_kwargs).

(** * Properties *)

(** ** Construction *)

Section construction.
Context `{Transformers}.

(** The constructor touches the world only through its own two
    statements, whether or not the loaders succeed afterwards. *)
Lemma init_world name msl dlc margs targs w :
  (__init__ name msl dlc margs targs w).2 = after_init msl dlc targs w.
Proof.
  unfold __init__, after_init, bind, reading, unpack, gets, tuple_getitem, ret.
  destruct (511 <? default 128 msl); destruct dlc; simpl;
    repeat match goal with
           | |- context [match ?r with Ok _ => _ | Raise _ => _ end] =>
               destruct r; simpl
           end; reflexivity.
Qed.

(** The constructor in one equation: the loaders are called on the world
    left by its own statements, with the contents the two dictionaries have
    there. *)
Lemma init_eq name msl dlc margs targs w :
  __init__ name msl dlc margs targs w =
  let w1 := after_init msl dlc targs w in
  (pretrained name msl dlc
     (deref (default default_model_args margs) w1)
     (deref (default default_tokenizer_args targs) w1) (files w1), w1).
Proof.
  unfold __init__, pretrained, after_init, assemble, bind, reading, unpack,
    gets, tuple_getitem, ret.
  destruct (511 <? default 128 msl); destruct dlc; simpl;
    repeat match goal with
           | |- context [match ?r with Ok _ => _ | Raise _ => _ end] =>
               destruct r; simpl
           end; reflexivity.
Qed.

Lemma init_ok name msl dlc margs targs w a w' :
  __init__ name msl dlc margs targs w = (Ok a, w') →
  w' = after_init msl dlc targs w ∧
  ∃ enc tk, a = assemble msl dlc enc tk.
Proof.
  rewrite init_eq. cbv zeta. unfold pretrained.
  destruct (CamembertModel_from_pretrained _ _ _) as [enc|]; [|discriminate].
  destruct (CamembertTokenizer_from_pretrained _ _ _) as [tk|]; [|discriminate].
  intros [= <- <-]. split; [done|]. by exists enc, tk.
Qed.

(** An adapter that went through the constructor has the two configuration
    keys and a [max_seq_length] of at most 511. *)
Lemma init_constructed name msl dlc margs targs w a w' :
  __init__ name msl dlc margs targs w = (Ok a, w') →
  constructed_keys a ∧ max_seq_length a ≤ 511.
Proof.
  intros Hinit. apply init_ok in Hinit as (_ & enc & tk & ->).
  split; [reflexivity|]. unfold assemble. simpl.
  destruct (511 <? default 128 msl) eqn:Hcmp; [done|by apply Z.ltb_ge].
Qed.

(** C1. When both loaders answer, the constructor returns an adapter.  The
    adapter a construction returns stores a [max_seq_length] above 511 as
    511, and the warning is appended to the log; it stores a
    [max_seq_length] of at most 511 as it was passed, and nothing is
    logged. *)
Theorem init_clamps_max_seq_length name (msl : Z) dlc margs targs w :
  ((∀ kwargs, ∃ enc,
      CamembertModel_from_pretrained name kwargs (files w) = Ok enc) →
   (∀ kwargs, ∃ tk,
      CamembertTokenizer_from_pretrained name kwargs (files w) = Ok tk) →
   ∃ a w', __init__ name (Some msl) dlc margs targs w = (Ok a, w')) ∧
  (∀ a w',
     __init__ name (Some msl) dlc margs targs w = (Ok a, w') →
     (511 < msl → max_seq_length a = 511 ∧ log w' = log w ++ [clamp_warning]) ∧
     (msl ≤ 511 → max_seq_length a = msl ∧ log w' = log w)).
Proof.
  split.
  - intros Hmodel Htok. rewrite init_eq. cbv zeta. unfold pretrained.
    assert (Hfiles : files (after_init (Some msl) dlc targs w) = files w).
    { unfold after_init. by destruct (511 <? default 128 (Some msl)), dlc. }
    rewrite Hfiles.
    destruct (Hmodel (deref (default default_model_args margs)
                        (after_init (Some msl) dlc targs w))) as [enc ->].
    destruct (Htok (deref (default default_tokenizer_args targs)
                      (after_init (Some msl) dlc targs w))) as [tk ->].
    eauto.
  - intros a w' Hinit. apply init_ok in Hinit as (-> & enc & tk & ->).
    unfold after_init, assemble. simpl.
    split; intros Hcmp.
    + apply Z.ltb_lt in Hcmp as ->. by destruct dlc.
    + apply Z.ltb_ge in Hcmp as ->. by destruct dlc.
Qed.
End construction.

(** The small loaders answer for the hub name, whatever the keywords. *)
Lemma mini_loaders_answer :
  (∀ kwargs, ∃ enc,
     @CamembertModel_from_pretrained Mini.library "camembert-base" kwargs ∅
     = Ok enc) ∧
  (∀ kwargs, ∃ tk,
     @CamembertTokenizer_from_pretrained Mini.library "camembert-base" kwargs ∅
     = Ok tk).
Proof. split; intros kwargs; eexists; reflexivity. Qed.

Lemma init_clamps_max_seq_length_witness :
  let a600 := assemble (Some 600) None (Mini.model false) (Mini.tokenizer false ∅) in
  let a300 := assemble (Some 300) None (Mini.model false) (Mini.tokenizer false ∅) in
  let w600 := World ∅ [clamp_warning] ∅ in
  (@__init__ Mini.library "camembert-base" (Some 600) None None None Mini.start
     = (Ok a600, w600) ∧
   max_seq_length a600 = 511 ∧ log w600 = log Mini.start ++ [clamp_warning]) ∧
  (@__init__ Mini.library "camembert-base" (Some 300) None None None Mini.start
     = (Ok a300, Mini.start) ∧
   max_seq_length a300 = 300 ∧ log Mini.start = log Mini.start) ∧
  (∃ a w',
     @__init__ Mini.library "camembert-base" (Some 128) (Some true) None None
       Mini.start = (Ok a, w')).
Proof.
  intros a600 a300 w600.
  assert (H600 : @__init__ Mini.library "camembert-base" (Some 600) None None
                   None Mini.start = (Ok a600, w600)) by reflexivity.
  assert (H300 : @__init__ Mini.library "camembert-base" (Some 300) None None
                   None Mini.start = (Ok a300, Mini.start)) by reflexivity.
  split; [|split].
  - split; [exact H600|].
    apply (proj2 (@init_clamps_max_seq_length Mini.library "camembert-base" 600
                    None None None Mini.start) _ _ H600).
    reflexivity.
  - split; [exact H300|].
    apply (proj2 (@init_clamps_max_seq_length Mini.library "camembert-base" 300
                    None None None Mini.start) _ _ H300).
    discriminate.
  - apply (proj1 (@init_clamps_max_seq_length Mini.library "camembert-base" 128
                    (Some true) None None Mini.start));
      apply mini_loaders_answer.
Defined.

(** ** Heap lemmas *)

Lemma deref_store l d w : deref l (store l d w) = d.
Proof. unfold deref, store. simpl. by rewrite lookup_insert_eq. Qed.

Lemma deref_store_ne l l' d w : l ≠ l' → deref l' (store l d w) = deref l' w.
Proof. intros Hne. unfold deref, store. simpl. by rewrite lookup_insert_ne. Qed.

(** ** Sentence features *)

Section features.
Import CamembertTokenizer.

Lemma get_sentence_features_eq tokens pad a w :
  get_sentence_features tokens pad (a, w) =
  (prepare_for_model (tokenizer a) tokens
     (Z.min pad (max_seq_length a) + 3) true "pt", (a, w)).
Proof. reflexivity. Qed.

(** C2, as amended.  The tokenizer's routine is called with
    [min pad_seq_length max_seq_length + 3], to pad to that length and to
    return tensors, and what it answers is returned.  Where that length
    leaves room for the two special tokens and the routine does what the
    spec says of it, the call returns, and the ids and the mask have
    exactly that many positions whatever the number of tokens: the content
    between the special tokens, cut to fit, with mask 1, then the padding
    id with mask 0. *)
Theorem sentence_features_fixed_length a w tokens pad :
  let effective := Z.min pad (max_seq_length a) + 3 in
  let tk := tokenizer a in
  get_sentence_features tokens pad (a, w) =
    (prepare_for_model tk tokens effective true "pt", (a, w)) ∧
  (pads_to_length tk → 2 ≤ effective →
   ∃ d ids mask,
     let n := (2 + length tokens `min` Z.to_nat (effective - 2))%nat in
     let padding := (Z.to_nat effective - n)%nat in
     get_sentence_features tokens pad (a, w) = (Ok d, (a, w)) ∧
     d !! "input_ids" = Some (VTensor (batch1 ids)) ∧
     d !! "attention_mask" = Some (VTensor (batch1 mask)) ∧
     Z.of_nat (length ids) = effective ∧
     Z.of_nat (length mask) = effective ∧
     ids = (convert_token_to_id tk (cls_token tk)
            :: take (Z.to_nat (effective - 2)) tokens
            ++ [convert_token_to_id tk (sep_token tk)])
           ++ replicate padding (convert_token_to_id tk (pad_token tk)) ∧
     mask = replicate n 1 ++ replicate padding 0).
Proof.
  intros effective tk. split; [reflexivity|]. intros Hspec Hroom.
  destruct (Hspec tokens effective Hroom) as (d & Hcall & Hids & Hmask).
  cbv zeta in Hids, Hmask.
  assert (Hseq : length (convert_token_to_id tk (cls_token tk)
                   :: take (Z.to_nat (effective - 2)) tokens
                   ++ [convert_token_to_id tk (sep_token tk)])
                 = (2 + length tokens `min` Z.to_nat (effective - 2))%nat).
  { simpl. rewrite length_app, length_take. simpl. lia. }
  rewrite Hseq in Hids, Hmask.
  eexists d, _, _. cbv zeta.
  split; [by rewrite get_sentence_features_eq; fold tk effective; rewrite Hcall|].
  split; [exact Hids|]. split; [exact Hmask|].
  rewrite !length_app, !length_replicate, Hseq.
  repeat split; lia.
Qed.
End features.

(** The routine of the small tokenizer does what the spec says. *)
Lemma mini_pads_to_length lowering kwargs :
  CamembertTokenizer.pads_to_length (Mini.tokenizer lowering kwargs).
Proof.
  intros ids max_length Hroom. unfold Mini.tokenizer.
  cbn [CamembertTokenizer.prepare_for_model CamembertTokenizer.convert_token_to_id
       CamembertTokenizer.cls_token CamembertTokenizer.sep_token
       CamembertTokenizer.pad_token].
  change (Mini.vocab "<s>") with 5. change (Mini.vocab "</s>") with 6.
  change (Mini.vocab "<pad>") with 1.
  unfold Mini.prepare.
  rewrite (bool_decide_eq_false_2 (max_length = 0)) by lia.
  cbn [negb andb].
  assert (Hcontent :
    take (length ids - Z.to_nat
            (if max_length <? Z.of_nat (length ids) + 2
             then Z.of_nat (length ids) + 2 - max_length else 0)) ids
    = take (Z.to_nat (max_length - 2)) ids).
  { destruct (max_length <? Z.of_nat (length ids) + 2) eqn:Hcmp.
    - apply Z.ltb_lt in Hcmp. f_equal. lia.
    - apply Z.ltb_ge in Hcmp. rewrite !take_ge; [done|lia|lia]. }
  assert (Henough :
    (Z.of_nat (length ids) <?
       (if max_length <? Z.of_nat (length ids) + 2
        then Z.of_nat (length ids) + 2 - max_length else 0)) = false).
  { apply Z.ltb_ge.
    destruct (max_length <? Z.of_nat (length ids) + 2) eqn:Hcmp; lia. }
  rewrite Henough, Hcontent. eexists. split; [reflexivity|]. cbv zeta.
  rewrite bool_decide_eq_true_2 by reflexivity. split.
  - rewrite !lookup_insert_ne by done. by rewrite lookup_insert_eq.
  - rewrite lookup_insert_ne by done. by rewrite lookup_insert_eq.
Qed.

Lemma sentence_features_fixed_length_witness :
  let effective := Z.min 10 (max_seq_length mini_adapter) + 3 in
  2 ≤ effective ∧
  ∃ d ids mask,
    get_sentence_features [101; 102; 103] 10 (mini_adapter, Mini.start) =
      (Ok d, (mini_adapter, Mini.start)) ∧
    d !! "input_ids" = Some (VTensor (batch1 ids)) ∧
    d !! "attention_mask" = Some (VTensor (batch1 mask)) ∧
    Z.of_nat (length ids) = 13 ∧
    ids = [5; 101; 102; 103; 6; 1; 1; 1; 1; 1; 1; 1; 1] ∧
    mask = [1; 1; 1; 1; 1; 0; 0; 0; 0; 0; 0; 0; 0].
Proof.
  assert (Hroom : 2 ≤ Z.min 10 (max_seq_length mini_adapter) + 3)
    by (vm_compute; discriminate).
  split; [exact Hroom|].
  destruct (sentence_features_fixed_length mini_adapter Mini.start
              [101; 102; 103] 10) as [_ Hshape].
  destruct (Hshape (mini_pads_to_length false ∅) Hroom)
    as (d & ids & mask & Hcall & Hids & Hmask & Hlen & _ & -> & ->).
  exists d. eexists _, _. split; [exact Hcall|]. split; [exact Hids|].
  split; [exact Hmask|]. repeat split.
Defined.

Lemma sentence_features_negative_length :
  Z.min (-4) (max_seq_length mini_adapter) + 3 = -1 ∧
  (get_sentence_features [7; 8; 9] (-4) (mini_adapter, Mini.start)).1
    = Raise IndexError ∧
  ¬ ∃ ids : list Z,
      Z.of_nat (length ids) = Z.min (-4) (max_seq_length mini_adapter) + 3.
Proof.
  split; [reflexivity|]. split; [reflexivity|].
  intros [ids Hlen]. change (Z.of_nat (length ids) = -1) in Hlen. lia.
Qed.

(** ** The forward pass *)

Section forward.
Import CamembertModel.

(** The forward pass in one equation. *)
Lemma forward_eq features a w :
  forward features (a, w) =
  match call (camembert a) (deref features w) with
  | Raise e => (Raise e, (a, w))
  | Ok out =>
      match out !! 0%nat with
      | None => (Raise IndexError, (a, w))
      | Some tok =>
          match first_position tok with
          | Raise e => (Raise e, (a, w))
          | Ok cls =>
              match deref features w !! "attention_mask" with
              | None => (Raise (KeyError "attention_mask"), (a, w))
              | Some am =>
                  let d1 := relabelled tok cls am (deref features w) in
                  let w1 := store features d1 w in
                  if output_hidden_states (config (camembert a)) then
                    match out !! 2%nat with
                    | None => (Raise IndexError, (a, w1))
                    | Some hs =>
                        (Ok features,
                         (a, store features
                               (<["all_layer_embeddings" := hs]> d1) w1))
                    end
                  else (Ok features, (a, w1))
              end
          end
      end
  end.
Proof.
  cbv beta iota zeta delta
    [forward bind this gets in_world unpack lift_res tuple_getitem
     dict_getitem dict_update modify ret raise relabelled fst snd foldl].
  destruct (call (camembert a) (deref features w)) as [out|]; [|done].
  destruct (out !! 0%nat) as [tok|]; [|done].
  destruct (first_position tok) as [cls|]; [|done].
  destruct (deref features w !! "attention_mask") as [am|]; [|done].
  destruct (output_hidden_states (config (camembert a))); [|done].
  destruct (out !! 2%nat) as [hs|]; [|done].
  by rewrite deref_store.
Qed.




End forward.



(** ** The sidecar file *)

Section json.
Lemma string_app_nil_r (s : string) : s +:+ "" = s.
Proof.
  induction s as [|c s IH]; [done|].
  change (String c (s +:+ "") = String c s). by rewrite IH.
Qed.

Lemma string_app_assoc (s1 s2 s3 : string) :
  (s1 +:+ s2) +:+ s3 = s1 +:+ s2 +:+ s3.
Proof.
  induction s1 as [|c s1 IH]; [done|].
  change (String c ((s1 +:+ s2) +:+ s3) = String c (s1 +:+ s2 +:+ s3)).
  by rewrite IH.
Qed.

(** Scanning a text in two parts. *)
Lemma scan_app s1 s2 mode :
  scan mode (s1 +:+ s2) =
  match scan mode s1 with
  | Some (ts, m) =>
      match scan m s2 with
      | Some (ts', m') => Some (ts ++ ts', m')
      | None => None
      end
  | None => None
  end.
Proof.
  revert mode. induction s1 as [|c s1 IH]; intros mode.
  - change ("" +:+ s2) with s2. cbn [scan].
    by destruct (scan mode s2) as [[ts m]|].
  - change (String c s1 +:+ s2) with (String c (s1 +:+ s2)). cbn [scan].
    destruct (lex_step mode c) as [[ts m]|]; [|done].
    rewrite IH. destruct (scan m s1) as [[ts1 m1]|]; [|done].
    destruct (scan m1 s2) as [[ts2 m2]|]; [|done].
    by rewrite (assoc_L (++)).
Qed.

(** The characters of an atom are gathered and complete no token. *)
Lemma scan_atom s mode :
  string_forall atom_char s = true →
  match mode with InString _ => False | _ => True end →
  s ≠ "" →
  scan mode s = Some ([], InAtom (pending mode +:+ s)).
Proof.
  revert mode. induction s as [|c s IH]; intros mode Hs Hmode Hne; [done|].
  simpl in Hs. apply andb_true_iff in Hs as [Hc Hs].
  unfold atom_char in Hc.
  rewrite !andb_true_iff, !negb_true_iff, bool_decide_eq_true in Hc.
  destruct Hc as [[Hsp Hq] Hp].
  assert (Hstep : lex_step mode c = Some ([], InAtom (snoc (pending mode) c))).
  { destruct mode; [|done|]; simpl; by rewrite Hsp, Hq, Hp. }
  cbn [scan]. rewrite Hstep.
  destruct s as [|c' s'].
  - done.
  - rewrite IH by done. cbn [pending app]. unfold snoc.
    by rewrite string_app_assoc.
Qed.

Lemma uint_atom_chars d :
  string_forall atom_char (NilEmpty.string_of_uint d) = true.
Proof. induction d; simpl; done. Qed.

Lemma string_of_Z_atom_chars z :
  string_of_Z z ≠ "" ∧ string_forall atom_char (string_of_Z z) = true.
Proof.
  unfold string_of_Z, NilZero.string_of_int, NilZero.string_of_uint.
  destruct (Z.to_int z) as [d|d]; destruct d; simpl; split;
    try done; apply uint_atom_chars.
Qed.

Lemma to_int_not_nil z :
  Z.to_int z ≠ Decimal.Pos Decimal.Nil ∧ Z.to_int z ≠ Decimal.Neg Decimal.Nil.
Proof.
  destruct z as [|p|p]; simpl; split; try done;
    intros [= Hnil]; by apply (Unsigned.to_uint_nonnil p).
Qed.

Lemma parse_atom_int z : parse_atom (string_of_Z z) = Some (JInt z).
Proof.
  destruct (to_int_not_nil z) as [Hpos Hneg].
  pose proof (NilZero.isi _ Hpos Hneg) as Hint.
  fold (string_of_Z z) in Hint. unfold parse_atom.
  repeat case_bool_decide;
    try (match goal with
         | Heq : string_of_Z z = _ |- _ => rewrite Heq in Hint
         end; vm_compute in Hint; discriminate).
  rewrite Hint, DecimalZ.of_to. by rewrite bool_decide_eq_true_2.
Qed.

Lemma json_dumps_config a :
  json_dumps (config_document a) 2 =
  text_before_length +:+ string_of_Z (max_seq_length a)
  +:+ text_after_length (match do_lower_case a with
                         | Some b => JBool b
                         | None => JNull
                         end).
Proof.
  unfold json_dumps, config_document, dump_members, dump_member,
    text_before_length, text_after_length.
  cbn [fst snd dump_scalar]. by rewrite !string_app_assoc.
Qed.

Lemma lex_config n v :
  (∀ z, v ≠ JInt z) →
  lex (text_before_length +:+ string_of_Z n +:+ text_after_length v) =
  Some [TLBrace; TString "max_seq_length"; TColon; TAtom (string_of_Z n);
        TComma; TString "do_lower_case"; TColon; TAtom (dump_scalar v);
        TRBrace].
Proof.
  intros Hv. unfold lex. rewrite scan_app.
  assert (scan Between text_before_length
          = Some ([TLBrace; TString "max_seq_length"; TColon], Between))
    as -> by reflexivity.
  destruct (string_of_Z_atom_chars n) as [Hne Hchars].
  rewrite scan_app, scan_atom by done. cbn [pending].
  change ("" +:+ string_of_Z n) with (string_of_Z n).
  generalize (string_of_Z n). intros atom.
  destruct v as [|[|]|z]; [reflexivity..|by destruct (Hv z)].
Qed.

Lemma json_round_trip a :
  json_loads (json_dumps (config_document a) 2) = Ok (config_document a).
Proof.
  unfold json_loads. rewrite json_dumps_config, lex_config.
  - unfold config_document. cbn [mbind option_bind parse_object parse_members].
    rewrite parse_atom_int. by destruct (do_lower_case a) as [[|]|].
  - by destruct (do_lower_case a).
Qed.
End json.

(** ** Persistence *)

Section persistence.
Lemma get_config_dict_eq a w :
  constructed_keys a →
  get_config_dict (a, w) =
  (Ok [("max_seq_length", VInt (max_seq_length a));
       ("do_lower_case", match do_lower_case a with
                         | Some b => VBool b
                         | None => VNone
                         end)], (a, w)).
Proof.
  intros Hkeys.
  cbv beta iota zeta delta [get_config_dict bind this gets lift_res fst snd].
  by rewrite Hkeys.
Qed.

Lemma to_json_config a :
  to_json [("max_seq_length", VInt (max_seq_length a));
           ("do_lower_case", match do_lower_case a with
                             | Some b => VBool b
                             | None => VNone
                             end)] = Ok (config_document a).
Proof. unfold config_document. by destruct (do_lower_case a). Qed.

(** [save] in one equation. *)
Lemma save_eq a w output_path :
  constructed_keys a →
  save output_path (a, w) =
  match CamembertModel.save_pretrained (camembert a) output_path (files w) with
  | Raise e => (Raise e, (a, w))
  | Ok fs1 =>
      match CamembertTokenizer.save_pretrained (tokenizer a) output_path fs1 with
      | Raise e => (Raise e, (a, set_files fs1 w))
      | Ok fs2 =>
          (Ok tt,
           (a, set_files (<[config_path output_path :=
                             json_dumps (config_document a) 2]> fs2) w))
      end
  end.
Proof.
  intros Hkeys. unfold save.
  cbv beta iota zeta delta [bind this gets in_world writing fst snd].
  destruct (CamembertModel.save_pretrained _ _ _) as [fs1|]; [|done].
  cbn [files set_files].
  destruct (CamembertTokenizer.save_pretrained _ _ _) as [fs2|]; [|done].
  cbv beta iota zeta delta [write_file modify fst snd].
  rewrite get_config_dict_eq by done.
  cbv beta iota zeta delta [lift_res]. rewrite to_json_config.
  unfold set_files, config_path. cbn [heap log files].
  by rewrite insert_insert_eq.
Qed.

Lemma os_path_join_plain dir file :
  starts_with_sep file = false → dir ≠ "" → ends_with_sep dir = false →
  os_path_join dir file = dir +:+ "/" +:+ file.
Proof.
  intros Hfile Hdir Hsep. unfold os_path_join.
  by rewrite Hfile, Hsep, bool_decide_eq_false_2.
Qed.

(** C6. Once the encoder and the tokenizer have saved themselves, [save]
    returns and has written, at [sentence_camembert_config.json] inside
    [output_path], the text of a JSON object with the two members
    [max_seq_length], an integer, and [do_lower_case], a boolean or
    [null], each on a line of its own behind two spaces; no other file
    is written by it. *)
Theorem save_writes_config a w output_path fs1 fs2 :
  constructed_keys a →
  CamembertModel.save_pretrained (camembert a) output_path (files w) = Ok fs1 →
  CamembertTokenizer.save_pretrained (tokenizer a) output_path fs1 = Ok fs2 →
  let path := os_path_join output_path "sentence_camembert_config.json" in
  let value :=
    match do_lower_case a with
    | Some true => "true"
    | Some false => "false"
    | None => "null"
    end in
  let text :=
    "{" +:+ newline
    +:+ "  " +:+ quoted "max_seq_length" +:+ ": "
        +:+ string_of_Z (max_seq_length a) +:+ "," +:+ newline
    +:+ "  " +:+ quoted "do_lower_case" +:+ ": " +:+ value +:+ newline
    +:+ "}" in
  ∃ w',
    save output_path (a, w) = (Ok tt, (a, w')) ∧
    files w' !! path = Some text ∧
    json_loads text =
      Ok [("max_seq_length", JInt (max_seq_length a));
          ("do_lower_case", match do_lower_case a with
                            | Some b => JBool b
                            | None => JNull
                            end)] ∧
    (∀ other, other ≠ path → files w' !! other = fs2 !! other) ∧
    heap w' = heap w ∧ log w' = log w ∧
    (output_path ≠ "" → ends_with_sep output_path = false →
     path = output_path +:+ "/sentence_camembert_config.json").
Proof.
  intros Hkeys Hmodel Htok path value text.
  assert (Htext : text = json_dumps (config_document a) 2).
  { rewrite json_dumps_config. subst text value.
    unfold text_before_length, text_after_length.
    rewrite !string_app_assoc. by destruct (do_lower_case a) as [[|]|]. }
  eexists. rewrite save_eq, Hmodel, Htok by done.
  split; [reflexivity|]. cbn [files set_files heap log].
  repeat split.
  - fold path. unfold config_path, config_file. fold path.
    by rewrite lookup_insert_eq, Htext.
  - rewrite Htext. apply json_round_trip.
  - intros other Hother. by rewrite lookup_insert_ne.
  - intros Hdir Hsep. by apply os_path_join_plain.
Qed.

(** What [save] wrote, [load] reads back as the arguments of the
    constructor. *)
Lemma load_eq `{Transformers} a w dir :
  files w !! config_path dir = Some (json_dumps (config_document a) 2) →
  load dir w =
  __init__ dir (Some (max_seq_length a)) (do_lower_case a) None None w.
Proof.
  intros Hfile. unfold load, read_file. fold (config_path dir).
  cbv beta iota zeta delta [bind lift_res]. rewrite Hfile, json_round_trip.
  unfold config_document. cbn [keywords bool_decide decide_rel fst snd].
  by destruct (do_lower_case a).
Qed.

Lemma save_load_config `{Transformers} a w dir s1 b w2 :
  constructed_keys a → max_seq_length a ≤ 511 →
  save dir (a, w) = (Ok tt, s1) →
  load dir s1.2 = (Ok b, w2) →
  max_seq_length b = max_seq_length a ∧
  do_lower_case b = do_lower_case a ∧
  constructed_keys b ∧
  ∀ w3, (get_config_dict (b, w3)).1 = (get_config_dict (a, w3)).1.
Proof.
  intros Hkeys Hmax Hsave Hload. rewrite save_eq in Hsave by done.
  destruct (CamembertModel.save_pretrained _ _ _) as [fs1|]; [|done].
  destruct (CamembertTokenizer.save_pretrained _ _ _) as [fs2|]; [|done].
  injection Hsave as <-. cbn [snd] in Hload.
  rewrite (load_eq a) in Hload
    by (cbn [files set_files]; by rewrite lookup_insert_eq).
  apply init_ok in Hload as (_ & enc & tk & ->).
  assert (Hmsl : max_seq_length (assemble (Some (max_seq_length a))
                   (do_lower_case a) enc tk) = max_seq_length a).
  { unfold assemble. simpl. by apply Z.ltb_ge in Hmax as ->. }
  repeat split; [done|]. intros w3.
  rewrite !get_config_dict_eq by done. cbn [fst]. by rewrite Hmsl.
Qed.
End persistence.

Lemma save_writes_config_witness :
  ∃ w',
    save "out" (mini_adapter, Mini.start) = (Ok tt, (mini_adapter, w')) ∧
    files w' !! "out/sentence_camembert_config.json" = Some mini_config_text ∧
    json_loads mini_config_text =
      Ok [("max_seq_length", JInt 128); ("do_lower_case", JNull)].
Proof.
  destruct (save_writes_config mini_adapter Mini.start "out"
              (<["out/config.json" := "off"]> ∅)
              (<["out/tokenizer_config.json" := "off"]>
                 (<["out/config.json" := "off"]> ∅)))
    as (w' & Hrun & Hfile & Hloads & _); [reflexivity..|].
  exists w'. split; [exact Hrun|]. split; [exact Hfile|exact Hloads].
Defined.

(** ** Tokenization *)

Lemma tokenize_eq text a w :
  tokenize text (a, w) =
  (Ok (CamembertTokenizer.convert_tokens_to_ids (tokenizer a)
         (CamembertTokenizer.tokenize (tokenizer a) text)), (a, w)).
Proof. reflexivity. Qed.

(** C8. [tokenize] depends on the tokenizer and the text only: two adapters
    over the same tokenizer, in any two worlds, return the same ids, and so
    do two calls in a row; the ids are those of the tokenizer's sub-word
    tokens, one for each, with nothing put before or after them; the
    receiver and the world are left as they were. *)
Theorem tokenize_deterministic a1 a2 w1 w2 text :
  tokenizer a1 = tokenizer a2 →
  ∃ ids,
    tokenize text (a1, w1) = (Ok ids, (a1, w1)) ∧
    tokenize text (a2, w2) = (Ok ids, (a2, w2)) ∧
    (x <- tokenize text ;; y <- tokenize text ;; ret (x, y)) (a1, w1)
      = (Ok (ids, ids), (a1, w1)) ∧
    ids = CamembertTokenizer.convert_token_to_id (tokenizer a1)
            <$> CamembertTokenizer.tokenize (tokenizer a1) text ∧
    length ids = length (CamembertTokenizer.tokenize (tokenizer a1) text).
Proof.
  intros Htk. eexists. split; [reflexivity|].
  split; [by rewrite (tokenize_eq text a2), <- Htk|]. split; [reflexivity|].
  split; [reflexivity|].
  unfold CamembertTokenizer.convert_tokens_to_ids. by rewrite length_fmap.
Qed.

Lemma tokenize_deterministic_witness :
  let a2 := assemble (Some 64) (Some false) (Mini.model true) (Mini.tokenizer false ∅) in
  tokenizer mini_adapter = tokenizer a2 ∧
  tokenize "Ab c" (mini_adapter, Mini.start)
    = (Ok [65; 98; 32; 99], (mini_adapter, Mini.start)) ∧
  tokenize "Ab c" (a2, mini_world) = (Ok [65; 98; 32; 99], (a2, mini_world)).
Proof.
  intros a2.
  destruct (tokenize_deterministic mini_adapter a2 Mini.start mini_world "Ab c"
              eq_refl) as (ids & H1 & H2 & _ & Hids & _).
  split; [reflexivity|]. rewrite H1, H2, Hids. split; reflexivity.
Defined.

(** ** The receiver *)

(** C9. [tokenize], [get_sentence_features], [forward] and
    [get_word_embedding_dimension] leave the adapter, with all the fields
    its constructor set, as it was, whether they return or raise. *)
Theorem methods_keep_the_adapter a w text tokens pad features :
  (tokenize text (a, w)).2.1 = a ∧
  (get_sentence_features tokens pad (a, w)).2.1 = a ∧
  (forward features (a, w)).2.1 = a ∧
  (get_word_embedding_dimension (a, w)).2.1 = a.
Proof.
  repeat split. rewrite forward_eq. cbv zeta.
  repeat match goal with
         | |- context [match ?x with _ => _ end] => destruct x
         end; reflexivity.
Qed.

(** ** The shared default dictionary *)

Section defaults.
Context `{Transformers}.

(** C10. A construction with [do_lower_case] given writes it into the
    [tokenizer_args] dictionary it works on, the caller's or the default
    one, whether or not the loaders succeed.  When that was the default
    dictionary, a later construction that leaves out both [do_lower_case]
    and [tokenizer_args] calls the tokenizer loader with the contents of the
    default dictionary and the entry written before. *)
Theorem default_tokenizer_args_is_shared name1 msl1 b margs1 targs1 w :
  let l := default default_tokenizer_args targs1 in
  let w1 := (__init__ name1 msl1 (Some b) margs1 targs1 w).2 in
  deref l w1 = <["do_lower_case" := VBool b]> (deref l w) ∧
  (l = default_tokenizer_args →
   ∀ name2 msl2 margs2,
     (__init__ name2 msl2 None margs2 None w1).1 =
     pretrained name2 msl2 None
       (deref (default default_model_args margs2) w1)
       (<["do_lower_case" := VBool b]> (deref default_tokenizer_args w))
       (files w)).
Proof.
  intros l w1.
  assert (Hw1 : deref l w1 = <["do_lower_case" := VBool b]> (deref l w)).
  { subst w1. rewrite init_world. unfold after_init. fold l.
    rewrite deref_store. by destruct (511 <? default 128 msl1). }
  split; [exact Hw1|]. intros Hl name2 msl2 margs2.
  rewrite init_eq. cbv zeta. cbn [fst default from_option id].
  rewrite <- Hl.
  assert (Hsame : ∀ l', deref l' (after_init msl2 None None w1) = deref l' w1)
    by (intros l'; unfold after_init; by destruct (511 <? default 128 msl2)).
  assert (Hfiles : files (after_init msl2 None None w1) = files w).
  { subst w1. rewrite init_world. unfold after_init.
    by destruct (511 <? default 128 msl2), (511 <? default 128 msl1). }
  by rewrite !Hsame, Hfiles, Hw1.
Qed.
End defaults.

Lemma default_tokenizer_args_is_shared_witness :
  let w1 := (@__init__ Mini.library "camembert-base" None (Some true) None None
               Mini.start).2 in
  deref default_tokenizer_args w1 = <["do_lower_case" := VBool true]> ∅ ∧
  (@__init__ Mini.library "camembert-base" None None None None w1).1 =
    Ok (assemble None None (Mini.model false)
          (Mini.tokenizer true (<["do_lower_case" := VBool true]> ∅))).
Proof.
  intros w1.
  destruct (@default_tokenizer_args_is_shared Mini.library "camembert-base"
              None true None None Mini.start) as [Hwritten Hnext].
  split; [exact Hwritten|].
  fold w1 in Hnext. by rewrite (Hnext eq_refl "camembert-base" None None).
Defined.

(** ** Where the shared default breaks the override and the round trip *)

(** C7, at a failing input.  After a construction with
    [do_lower_case=True] that left out [tokenizer_args], a construction
    with [do_lower_case] left out loads its tokenizer with
    [do_lower_case=True] all the same, and that tokenizer lower-cases; the
    same construction in a world where nothing was constructed before loads
    it with no keyword argument, and it keeps the case. *)
Theorem stale_do_lower_case_reaches_the_loader :
  let lowering : pydict := {["do_lower_case" := VBool true]} in
  let c := assemble None (Some true) (Mini.model false)
             (Mini.tokenizer true lowering) in
  let a := assemble None None (Mini.model false)
             (Mini.tokenizer true lowering) in
  let w1 := store default_tokenizer_args lowering Mini.start in
  @__init__ Mini.library "camembert-base" None (Some true) None None Mini.start
    = (Ok c, w1) ∧
  @__init__ Mini.library "camembert-base" None None None None w1 = (Ok a, w1) ∧
  @__init__ Mini.library "camembert-base" None None None None Mini.start
    = (Ok mini_adapter, Mini.start) ∧
  do_lower_case a = None ∧
  CamembertTokenizer.init_kwargs (tokenizer a) = lowering ∧
  CamembertTokenizer.init_kwargs (tokenizer mini_adapter) = ∅ ∧
  (tokenize "Ab" (a, w1)).1 = Ok [97; 98] ∧
  (tokenize "Ab" (mini_adapter, Mini.start)).1 = Ok [65; 98].
Proof. repeat split. Qed.

(** C3, at a failing input.  An adapter constructed from the defaults is
    saved and loaded back after another adapter was constructed with
    [do_lower_case=True]: the loaded adapter has the same [max_seq_length],
    [do_lower_case] and configuration dictionary, and tokenizes
    differently. *)
Theorem load_after_save_tokenizes_differently :
  let lowering : pydict := {["do_lower_case" := VBool true]} in
  let a := mini_adapter in
  let c := assemble None (Some true) (Mini.model false)
             (Mini.tokenizer true lowering) in
  let b := assemble (Some 128) None (Mini.model false)
             (Mini.tokenizer true lowering) in
  let w2 := store default_tokenizer_args lowering Mini.start in
  let w3 := set_files
              (<["out/sentence_camembert_config.json" := mini_config_text]>
                 (<["out/tokenizer_config.json" := "off"]>
                    (<["out/config.json" := "off"]> ∅))) w2 in
  @__init__ Mini.library "camembert-base" None None None None Mini.start
    = (Ok a, Mini.start) ∧
  @__init__ Mini.library "camembert-base" None (Some true) None None Mini.start
    = (Ok c, w2) ∧
  save "out" (a, w2) = (Ok tt, (a, w3)) ∧
  @load Mini.library "out" w3 = (Ok b, w3) ∧
  max_seq_length b = max_seq_length a ∧
  do_lower_case b = do_lower_case a ∧
  (get_config_dict (b, w3)).1 = (get_config_dict (a, w3)).1 ∧
  (tokenize "Ab" (a, w3)).1 = Ok [65; 98] ∧
  (tokenize "Ab" (b, w3)).1 = Ok [97; 98].
Proof. repeat split. Qed.

(** * Further properties of the code *)

(** ** What a construction touches and what it hands to the loaders *)

Section construction_effects.
Context `{Transformers}.

(** X1. Whether it returns or raises, a construction changes no
    dictionary but the [tokenizer_args] it works on; there it changes the
    entry [do_lower_case] only, to the value given, and with
    [do_lower_case] left out it changes nothing in the heap.  An entry
    [do_lower_case] that is there is never removed. *)
Theorem init_frame name msl dlc margs targs w :
  let w' := (__init__ name msl dlc margs targs w).2 in
  let l := default default_tokenizer_args targs in
  (∀ l', l' ≠ l → deref l' w' = deref l' w) ∧
  (∀ key, key ≠ "do_lower_case" → deref l w' !! key = deref l w !! key) ∧
  deref l w' !! "do_lower_case" =
    match dlc with
    | Some b => Some (VBool b)
    | None => deref l w !! "do_lower_case"
    end ∧
  (dlc = None → heap w' = heap w).
Proof.
  intros w' l. subst w'. rewrite init_world. unfold after_init. fold l.
  destruct (511 <? default 128 msl); destruct dlc as [b|];
    cbn [files log heap store set_heap];
    (split; [intros l' Hl'; try reflexivity; by rewrite deref_store_ne|]);
    (split; [intros key Hkey; try reflexivity;
             by rewrite deref_store, lookup_insert_ne|]);
    (split; [try reflexivity; by rewrite deref_store, lookup_insert_eq|]);
    by intros.
Qed.

(** X2. The keyword bags of the two loaders.  With [do_lower_case] given,
    the tokenizer loader receives the contents of [tokenizer_args] with
    [do_lower_case] set to that value, whatever the dictionary held before;
    the encoder loader receives the contents of [model_args], which
    include the new entry when both parameters are one and the same
    dictionary.  With [do_lower_case] left out, both loaders receive the
    contents of the two dictionaries as they are. *)
Theorem init_loader_arguments name msl margs targs w :
  let lm := default default_model_args margs in
  let lt := default default_tokenizer_args targs in
  (∀ b,
     (__init__ name msl (Some b) margs targs w).1 =
     pretrained name msl (Some b)
       (if decide (lm = lt)
        then <["do_lower_case" := VBool b]> (deref lt w)
        else deref lm w)
       (<["do_lower_case" := VBool b]> (deref lt w))
       (files w)) ∧
  (__init__ name msl None margs targs w).1 =
    pretrained name msl None (deref lm w) (deref lt w) (files w).
Proof.
  intros lm lt. split; [intros b|]; rewrite init_eq; cbv zeta; cbn [fst];
    unfold after_init; fold lm lt.
  - assert (Hfiles : ∀ w0 d, files (store lt d w0) = files w0) by done.
    assert (Hwarn : ∀ l0, deref l0 (World (heap w) (log w ++ [clamp_warning])
                                     (files w)) = deref l0 w) by done.
    destruct (511 <? default 128 msl); rewrite Hfiles, deref_store;
      rewrite ?Hwarn; (case_decide as Hl;
        [by rewrite Hl, deref_store
        |by rewrite deref_store_ne, ?Hwarn by done]).
  - by destruct (511 <? default 128 msl).
Qed.

(** X3. The configuration dictionary of an adapter that the constructor
    returned, in any world: [max_seq_length] first, holding the argument
    (128 when left out) cut to 511, then [do_lower_case], holding the
    argument or [None]. *)
Theorem init_config_dict name msl dlc margs targs w a w' w'' :
  __init__ name msl dlc margs targs w = (Ok a, w') →
  get_config_dict (a, w'') =
  (Ok [("max_seq_length", VInt (Z.min (default 128 msl) 511));
       ("do_lower_case", match dlc with
                         | Some b => VBool b
                         | None => VNone
                         end)], (a, w'')).
Proof.
  intros Hinit. destruct (init_constructed _ _ _ _ _ _ _ _ Hinit) as [Hkeys _].
  rewrite get_config_dict_eq by done.
  apply init_ok in Hinit as (_ & enc & tk & ->). cbn [assemble max_seq_length do_lower_case].
  destruct (511 <? default 128 msl) eqn:Hcmp.
  - apply Z.ltb_lt in Hcmp. by rewrite Z.min_r by lia.
  - apply Z.ltb_ge in Hcmp. by rewrite Z.min_l by lia.
Qed.

(** X4. For an adapter that the constructor returned, the length handed to
    [prepare_for_model] is [min pad_seq_length max_seq_length + 3] over
    the clamped [max_seq_length]: never more than 514, and at least 3 when
    neither length is negative. *)
Theorem sentence_features_length_cap name msl dlc margs targs w a w' tokens pad w'' :
  __init__ name msl dlc margs targs w = (Ok a, w') →
  ∃ L,
    get_sentence_features tokens pad (a, w'') =
      (CamembertTokenizer.prepare_for_model (tokenizer a) tokens L true "pt",
       (a, w'')) ∧
    L = Z.min pad (Z.min (default 128 msl) 511) + 3 ∧
    L ≤ 514 ∧
    (0 ≤ pad → 0 ≤ default 128 msl → 3 ≤ L).
Proof.
  intros Hinit. apply init_ok in Hinit as (_ & enc & tk & ->).
  eexists. split; [apply get_sentence_features_eq|].
  cbn [assemble max_seq_length].
  destruct (511 <? default 128 msl) eqn:Hcmp;
    [apply Z.ltb_lt in Hcmp|apply Z.ltb_ge in Hcmp]; repeat split; lia.
Qed.
End construction_effects.

Lemma init_config_dict_witness :
  @__init__ Mini.library "camembert-base" (Some 600) (Some true) None None
    Mini.start
  = (Ok (assemble (Some 600) (Some true) (Mini.model false)
           (Mini.tokenizer true lowering_kwargs)),
     store default_tokenizer_args lowering_kwargs
       (World ∅ [clamp_warning] ∅)) ∧
  get_config_dict
    (assemble (Some 600) (Some true) (Mini.model false)
       (Mini.tokenizer true lowering_kwargs), mini_world) =
  (Ok [("max_seq_length", VInt (Z.min (default 128 (Some 600)) 511));
       ("do_lower_case", VBool true)],
   (assemble (Some 600) (Some true) (Mini.model false)
      (Mini.tokenizer true lowering_kwargs), mini_world)).
Proof.
  assert (Hrun : @__init__ Mini.library "camembert-base" (Some 600) (Some true)
                   None None Mini.start
                 = (Ok (assemble (Some 600) (Some true) (Mini.model false)
                          (Mini.tokenizer true lowering_kwargs)),
                    store default_tokenizer_args lowering_kwargs
                      (World ∅ [clamp_warning] ∅))) by reflexivity.
  split; [exact Hrun|].
  exact (init_config_dict _ _ _ _ _ _ _ _ mini_world Hrun).
Defined.

Lemma sentence_features_length_cap_witness :
  @__init__ Mini.library "camembert-base" (Some 600) None None None Mini.start
  = (Ok (assemble (Some 600) None (Mini.model false) (Mini.tokenizer false ∅)),
     World ∅ [clamp_warning] ∅) ∧
  ∃ L,
    get_sentence_features [7; 8] 1000
      (assemble (Some 600) None (Mini.model false) (Mini.tokenizer false ∅),
       Mini.start) =
      (CamembertTokenizer.prepare_for_model (Mini.tokenizer false ∅)
         [7; 8] L true "pt",
       (assemble (Some 600) None (Mini.model false) (Mini.tokenizer false ∅),
        Mini.start)) ∧
    L = 514.
Proof.
  assert (Hrun : @__init__ Mini.library "camembert-base" (Some 600) None None None
                   Mini.start
                 = (Ok (assemble (Some 600) None (Mini.model false)
                          (Mini.tokenizer false ∅)),
                    World ∅ [clamp_warning] ∅)) by reflexivity.
  split; [exact Hrun|].
  destruct (sentence_features_length_cap _ _ _ _ _ _ _ _ [7; 8] 1000 Mini.start
              Hrun) as (L & Hcall & HL & _).
  exists L. split; [exact Hcall|]. rewrite HL. reflexivity.
Defined.

(** ** How the forward pass fails, and what it leaves behind *)

Section forward_edges.
Import CamembertModel.

Lemma traverse_length {A B} (f : A → res B) l ys :
  traverse f l = Ok ys → length ys = length l.
Proof.
  revert ys. induction l as [|x l IH]; intros ys Htr; simpl in Htr.
  - by injection Htr as <-.
  - destruct (f x); [|done]. destruct (traverse f l) as [ys'|]; [|done].
    injection Htr as <-. simpl. by rewrite (IH ys').
Qed.

Lemma traverse_raises {A B} (f : A → res B) l x e0 :
  (∀ y e, f y = Raise e → e = e0) → x ∈ l → f x = Raise e0 →
  traverse f l = Raise e0.
Proof.
  intros Honly Hin Hx. induction Hin as [x l|x y l Hin IH]; simpl.
  - by rewrite Hx.
  - destruct (f y) eqn:Hy; [by rewrite IH|]. by rewrite (Honly _ _ Hy).
Qed.

(** X5. A forward pass that raises has left the world as it was, with one
    exception: when [output_hidden_states] is set and the encoder's tuple
    has no element 2, it raises [IndexError] after the dictionary has
    received [token_embeddings], [cls_token_embeddings] and
    [attention_mask]. *)
Theorem forward_failure_states features a w e s' :
  forward features (a, w) = (Raise e, s') →
  s' = (a, w) ∨
  (output_hidden_states (config (camembert a)) = true ∧ e = IndexError ∧
   ∃ out tok cls am,
     call (camembert a) (deref features w) = Ok out ∧
     out !! 0%nat = Some tok ∧ out !! 2%nat = None ∧
     first_position tok = Ok cls ∧
     deref features w !! "attention_mask" = Some am ∧
     s' = (a, store features (relabelled tok cls am (deref features w)) w)).
Proof.
  rewrite forward_eq. cbv zeta.
  destruct (call (camembert a) (deref features w)) as [out|] eqn:Hcall;
    [|intros [= _ <-]; by left].
  destruct (out !! 0%nat) as [tok|] eqn:Htok; [|intros [= _ <-]; by left].
  destruct (first_position tok) as [cls|] eqn:Hcls; [|intros [= _ <-]; by left].
  destruct (deref features w !! "attention_mask") as [am|] eqn:Ham;
    [|intros [= _ <-]; by left].
  destruct (output_hidden_states (config (camembert a))) eqn:Hflag; [|done].
  destruct (out !! 2%nat) as [hs|] eqn:Hhs; [done|].
  intros [= <- <-]. right. repeat split. by exists out, tok, cls, am.
Qed.


(** X7. The dictionary a forward pass returns is no input for a second
    one when the encoder knows its own inputs only: the second pass hands
    [token_embeddings], written by the first, to the encoder as a keyword,
    and what the encoder raises for it comes out, the dictionary staying
    as the first pass left it. *)
Theorem forward_feeds_back_its_output features a w r s1 e :
  forward features (a, w) = (Ok r, s1) →
  (∀ kwargs, is_Some (kwargs !! "token_embeddings") →
             call (camembert a) kwargs = Raise e) →
  is_Some (deref features s1.2 !! "token_embeddings") ∧
  forward features s1 = (Raise e, s1).
Proof.
  intros Hrun Hstrict.
  assert (Hs1 : s1.1 = a ∧ is_Some (deref features s1.2 !! "token_embeddings")).
  { rewrite forward_eq in Hrun. cbv zeta in Hrun.
    destruct (call (camembert a) (deref features w)) as [out|]; [|done].
    destruct (out !! 0%nat) as [tok|]; [|done].
    destruct (first_position tok) as [cls|]; [|done].
    destruct (deref features w !! "attention_mask") as [am|]; [|done].
    destruct (output_hidden_states (config (camembert a))).
    - destruct (out !! 2%nat) as [hs|]; [|done]. injection Hrun as <- <-.
      split; [done|]. cbn [snd]. rewrite deref_store.
      rewrite lookup_insert_ne by done. unfold relabelled.
      rewrite !lookup_insert_ne by done. by rewrite lookup_insert_eq.
    - injection Hrun as <- <-. split; [done|]. cbn [snd].
      rewrite deref_store. unfold relabelled.
      rewrite !lookup_insert_ne by done. by rewrite lookup_insert_eq. }
  destruct Hs1 as [Ha Hfed]. split; [exact Hfed|].
  destruct s1 as [a1 w1]. cbn [fst snd] in *. subst a1.
  by rewrite forward_eq, (Hstrict _ Hfed).
Qed.

(** X8. After a forward pass that returned, [cls_token_embeddings] has one
    row for every element of the batch in [token_embeddings]. *)
Theorem forward_cls_rows features a w r s' batch :
  forward features (a, w) = (Ok r, s') →
  deref features s'.2 !! "token_embeddings" = Some (VTensor (Stack batch)) →
  ∃ firsts,
    deref features s'.2 !! "cls_token_embeddings" = Some (VTensor (Stack firsts)) ∧
    length firsts = length batch.
Proof.
  intros Hrun Htokens.
  assert (Hboth : ∃ tok cls, first_position tok = Ok cls ∧
            deref features s'.2 !! "token_embeddings" = Some tok ∧
            deref features s'.2 !! "cls_token_embeddings" = Some cls).
  { rewrite forward_eq in Hrun. cbv zeta in Hrun.
    destruct (call (camembert a) (deref features w)) as [out|]; [|done].
    destruct (out !! 0%nat) as [tok|]; [|done].
    destruct (first_position tok) as [cls|] eqn:Hcls; [|done].
    destruct (deref features w !! "attention_mask") as [am|]; [|done].
    exists tok, cls. split; [done|].
    destruct (output_hidden_states (config (camembert a))).
    - destruct (out !! 2%nat) as [hs|]; [|done]. injection Hrun as <- <-.
      cbn [snd]. rewrite deref_store, !(lookup_insert_ne _ "all_layer_embeddings") by done.
      unfold relabelled. split.
      + rewrite !lookup_insert_ne by done. by rewrite lookup_insert_eq.
      + rewrite lookup_insert_ne by done. by rewrite lookup_insert_eq.
    - injection Hrun as <- <-. cbn [snd]. rewrite deref_store.
      unfold relabelled. split.
      + rewrite !lookup_insert_ne by done. by rewrite lookup_insert_eq.
      + rewrite lookup_insert_ne by done. by rewrite lookup_insert_eq. }
  destruct Hboth as (tok & cls & Hcls & Htok & Hstored).
  rewrite Htokens in Htok. injection Htok as <-.
  unfold first_position in Hcls.
  destruct (traverse _ batch) as [firsts|] eqn:Htr; [|done].
  injection Hcls as <-. exists firsts. split; [done|].
  by apply traverse_length in Htr.
Qed.

(** X9. When some element of the batch the encoder returns has an empty
    sequence, there is no position 0 to take: the forward pass raises
    [IndexError] and leaves the dictionary as it was. *)
Theorem forward_empty_sequence features a w out batch :
  call (camembert a) (deref features w) = Ok out →
  out !! 0%nat = Some (VTensor (Stack batch)) →
  Stack [] ∈ batch →
  forward features (a, w) = (Raise IndexError, (a, w)).
Proof.
  intros Hcall Htok Hempty. rewrite forward_eq, Hcall, Htok.
  unfold first_position.
  rewrite (traverse_raises _ batch (Stack []) IndexError); [done| |done|done].
  intros y e Hy. destruct y as [|[|[|] ?]]; congruence.
Qed.
End forward_edges.

Lemma forward_failure_states_witness :
  let a := assemble None None short_model (Mini.tokenizer false ∅) in
  let left_behind :=
    (a, store 7%nat (relabelled mini_states mini_cls (VTensor (batch1 [1; 1; 1]))
                       mini_features) mini_world) in
  forward 7%nat (a, mini_world) = (Raise IndexError, left_behind) ∧
  left_behind ≠ (a, mini_world) ∧
  deref 7%nat left_behind.2 !! "token_embeddings" = Some mini_states.
Proof.
  intros a left_behind.
  assert (Hrun : forward 7%nat (a, mini_world) = (Raise IndexError, left_behind))
    by reflexivity.
  split; [exact Hrun|].
  assert (Hfed : deref 7%nat left_behind.2 !! "token_embeddings" = Some mini_states)
    by reflexivity.
  split; [|exact Hfed].
  destruct (forward_failure_states _ _ _ _ _ Hrun) as [Hsame|_].
  - rewrite Hsame in Hfed. discriminate Hfed.
  - intros Hsame. rewrite Hsame in Hfed. discriminate Hfed.
Defined.


Lemma forward_feeds_back_its_output_witness :
  let a := assemble None None strict_model (Mini.tokenizer false ∅) in
  let s1 := (forward 7%nat (a, mini_world)).2 in
  forward 7%nat (a, mini_world) = (Ok 7%nat, s1) ∧
  forward 7%nat s1
  = (Raise (TypeError "forward() got an unexpected keyword argument"), s1).
Proof.
  intros a s1.
  assert (Hrun : forward 7%nat (a, mini_world) = (Ok 7%nat, s1)) by reflexivity.
  split; [exact Hrun|].
  refine (proj2 (forward_feeds_back_its_output _ _ _ _ _ _ Hrun _)).
  intros kwargs [v Hv]. cbn. by rewrite Hv.
Defined.

Lemma forward_cls_rows_witness :
  let s' := (forward 7%nat (mini_adapter, mini_world)).2 in
  forward 7%nat (mini_adapter, mini_world) = (Ok 7%nat, s') ∧
  ∃ firsts,
    deref 7%nat s'.2 !! "cls_token_embeddings" = Some (VTensor (Stack firsts)) ∧
    length firsts = 1%nat.
Proof.
  intros s'.
  assert (Hrun : forward 7%nat (mini_adapter, mini_world) = (Ok 7%nat, s'))
    by reflexivity.
  split; [exact Hrun|].
  exact (forward_cls_rows 7%nat mini_adapter mini_world 7%nat s'
           [Stack [Stack [Scalar 5; Scalar 6]; Stack [Scalar 65; Scalar 66];
                   Stack [Scalar 6; Scalar 7]]] Hrun eq_refl).
Defined.

Lemma forward_empty_sequence_witness :
  forward 7%nat (mini_adapter, empty_sentence_world)
  = (Raise IndexError, (mini_adapter, empty_sentence_world)).
Proof.
  apply (forward_empty_sequence 7%nat mini_adapter empty_sentence_world
           [VTensor (Stack [Stack []]); VTensor (Stack [])] [Stack []]);
    [reflexivity|reflexivity|]. apply list_elem_of_here.
Defined.

(** ** Saving and loading *)

Section persistence_edges.
Context `{Transformers}.

(** X10. The order of [save].  When the encoder has saved itself and the
    tokenizer cannot, what the tokenizer raises comes out of [save], and
    the sidecar file is not written: its path holds what it held when the
    encoder had saved itself. *)
Theorem save_failures a w output_path fs1 e :
  CamembertModel.save_pretrained (camembert a) output_path (files w) = Ok fs1 →
  CamembertTokenizer.save_pretrained (tokenizer a) output_path fs1 = Raise e →
  ∃ w', save output_path (a, w) = (Raise e, (a, w')) ∧
        files w' !! os_path_join output_path "sentence_camembert_config.json"
        = fs1 !! os_path_join output_path "sentence_camembert_config.json" ∧
        heap w' = heap w ∧ log w' = log w.
Proof.
  intros Hmodel Htok. exists (set_files fs1 w). unfold save.
  cbv beta iota zeta delta [bind this gets in_world writing fst snd].
  rewrite Hmodel. cbn [files set_files]. by rewrite Htok.
Qed.

(** Where [save] returned, the sidecar file holds the document of the
    adapter, and the heap and the log are as before. *)
Lemma saved_sidecar a w dir s1 :
  constructed_keys a →
  save dir (a, w) = (Ok tt, s1) →
  files s1.2 !! config_path dir = Some (json_dumps (config_document a) 2) ∧
  heap s1.2 = heap w ∧ log s1.2 = log w.
Proof.
  intros Hkeys Hsave. rewrite save_eq in Hsave by done.
  destruct (CamembertModel.save_pretrained _ _ _) as [fs1|]; [|done].
  destruct (CamembertTokenizer.save_pretrained _ _ _) as [fs2|]; [|done].
  injection Hsave as <-. cbn [snd files set_files heap log].
  by rewrite lookup_insert_eq.
Qed.

(** X11. Loading what was saved is a construction from the directory with
    the saved [max_seq_length] and [do_lower_case] and with [model_args]
    and [tokenizer_args] left out: the keyword bags the saved adapter was
    built with play no part, the shared default dictionaries do. *)
Theorem load_after_save_is_construction a w dir s1 :
  constructed_keys a →
  save dir (a, w) = (Ok tt, s1) →
  load dir s1.2 =
  __init__ dir (Some (max_seq_length a)) (do_lower_case a) None None s1.2.
Proof.
  intros Hkeys Hsave. apply load_eq.
  by destruct (saved_sidecar a w dir s1 Hkeys Hsave) as [Hfile _].
Qed.

(** X12. For an adapter that the constructor returned: when [save] returns
    and [load] on the same directory returns, the loaded adapter has the
    same [max_seq_length], [do_lower_case], configuration keys and
    configuration dictionary, and loading has logged nothing and written
    no file. *)
Theorem save_load_keeps_config name msl dlc margs targs w0 a w1 w dir s1 b w2 :
  __init__ name msl dlc margs targs w0 = (Ok a, w1) →
  save dir (a, w) = (Ok tt, s1) →
  load dir s1.2 = (Ok b, w2) →
  max_seq_length b = max_seq_length a ∧
  do_lower_case b = do_lower_case a ∧
  config_keys b = config_keys a ∧
  (∀ w3, (get_config_dict (b, w3)).1 = (get_config_dict (a, w3)).1) ∧
  log w2 = log s1.2 ∧ files w2 = files s1.2.
Proof.
  intros Hinit Hsave Hload.
  destruct (init_constructed _ _ _ _ _ _ _ _ Hinit) as [Hkeys Hmax].
  destruct (save_load_config a w dir s1 b w2 Hkeys Hmax Hsave Hload)
    as (Hmsl & Hdlc & Hkeysb & Hdict).
  destruct (saved_sidecar a w dir s1 Hkeys Hsave) as [Hfile _].
  rewrite (load_eq a) in Hload by done.
  apply init_ok in Hload as [-> _]. unfold after_init.
  cbn [default from_option id]. apply Z.ltb_ge in Hmax as ->.
  repeat split; try done.
  - by rewrite Hkeysb, Hkeys.
  - by destruct (do_lower_case a).
  - by destruct (do_lower_case a).
Qed.

(** X13. Loading an adapter that was saved with [do_lower_case] given
    writes that value into the shared default [tokenizer_args], whether or
    not the loaders succeed: [load] leaves [tokenizer_args] out. *)
Theorem load_writes_the_default a w dir s1 b :
  constructed_keys a →
  do_lower_case a = Some b →
  save dir (a, w) = (Ok tt, s1) →
  deref default_tokenizer_args (load dir s1.2).2 =
  <["do_lower_case" := VBool b]> (deref default_tokenizer_args w).
Proof.
  intros Hkeys Hdlc Hsave.
  destruct (saved_sidecar a w dir s1 Hkeys Hsave) as (Hfile & Hheap & _).
  rewrite (load_eq a) by done.
  rewrite init_world, Hdlc. unfold after_init. cbn [default from_option id].
  rewrite deref_store.
  assert (Hsame : deref default_tokenizer_args s1.2
                  = deref default_tokenizer_args w)
    by (unfold deref; by rewrite Hheap).
  destruct (511 <? max_seq_length a); [|by rewrite Hsame].
  by rewrite <- Hsame.
Qed.

End persistence_edges.

Lemma save_failures_witness :
  let a := assemble None None (Mini.model false) unsaved_tokenizer in
  ∃ w',
    save "out" (a, Mini.start)
    = (Raise (EnvironmentError "cannot write the vocabulary"), (a, w')) ∧
    files w' !! "out/sentence_camembert_config.json" = None.
Proof.
  intros a.
  destruct (save_failures a Mini.start "out"
              (<["out/config.json" := "off"]> ∅)
              (EnvironmentError "cannot write the vocabulary")
              eq_refl eq_refl) as (w' & Hrun & Hfiles & _).
  exists w'. split; [exact Hrun|].
  change (files w' !! os_path_join "out" "sentence_camembert_config.json" = None).
  by rewrite Hfiles.
Defined.

Lemma load_after_save_is_construction_witness :
  let s1 := (save "out" (mini_adapter, Mini.start)).2 in
  constructed_keys mini_adapter ∧
  save "out" (mini_adapter, Mini.start) = (Ok tt, s1) ∧
  @load Mini.library "out" s1.2 =
  @__init__ Mini.library "out" (Some 128) None None None s1.2.
Proof.
  intros s1.
  assert (Hkeys : constructed_keys mini_adapter) by reflexivity.
  assert (Hsave : save "out" (mini_adapter, Mini.start) = (Ok tt, s1))
    by reflexivity.
  split; [exact Hkeys|]. split; [exact Hsave|].
  exact (@load_after_save_is_construction Mini.library mini_adapter Mini.start
           "out" s1 Hkeys Hsave).
Defined.

Lemma save_load_keeps_config_witness :
  let w1 := store default_tokenizer_args lowering_kwargs Mini.start in
  let s1 := (save "out" (lowering_adapter, w1)).2 in
  let b := assemble (Some 128) (Some true) (Mini.model false)
             (Mini.tokenizer true lowering_kwargs) in
  @__init__ Mini.library "camembert-base" None (Some true) None None Mini.start
    = (Ok lowering_adapter, w1) ∧
  save "out" (lowering_adapter, w1) = (Ok tt, s1) ∧
  @load Mini.library "out" s1.2 = (Ok b, s1.2) ∧
  max_seq_length b = 128 ∧
  do_lower_case b = Some true ∧
  (get_config_dict (b, Mini.start)).1
    = (get_config_dict (lowering_adapter, Mini.start)).1.
Proof.
  intros w1 s1 b.
  assert (Hinit : @__init__ Mini.library "camembert-base" None (Some true) None
                    None Mini.start = (Ok lowering_adapter, w1)) by reflexivity.
  assert (Hsave : save "out" (lowering_adapter, w1) = (Ok tt, s1)) by reflexivity.
  assert (Hload : @load Mini.library "out" s1.2 = (Ok b, s1.2)) by reflexivity.
  destruct (@save_load_keeps_config Mini.library _ _ _ _ _ _ _ _ _ _ _ _ _
              Hinit Hsave Hload) as (Hmsl & Hdlc & _ & Hdict & _).
  split; [exact Hinit|]. split; [exact Hsave|]. split; [exact Hload|].
  split; [by rewrite Hmsl|]. split; [by rewrite Hdlc|]. apply Hdict.
Defined.

Lemma load_writes_the_default_witness :
  let s1 := (save "out" (lowering_adapter, Mini.start)).2 in
  deref default_tokenizer_args s1.2 = ∅ ∧
  save "out" (lowering_adapter, Mini.start) = (Ok tt, s1) ∧
  deref default_tokenizer_args (@load Mini.library "out" s1.2).2
    = lowering_kwargs.
Proof.
  intros s1. split; [reflexivity|].
  assert (Hsave : save "out" (lowering_adapter, Mini.start) = (Ok tt, s1))
    by reflexivity.
  split; [exact Hsave|].
  exact (@load_writes_the_default Mini.library lowering_adapter Mini.start "out"
           s1 true eq_refl eq_refl Hsave).
Defined.

